(** * Common-emitter amplifier analysis: a shallow embedding

    The repository holds two copies of one analysis pipeline:
    [CommonEmitterAnalysis.py], a script that reads its inputs into
    module-level globals, prints every intermediate value and plots, and
    [CommonEmitterAnalysisApp.py], a Tk form whose [calculate] callback runs
    the same stages with explicit parameters and then fills the labels.

    Number model.  Every quantity of the program is a Python [float].  Here a
    float is an exact rational ([Q], compared with [==]): the arithmetic of
    the stages is embedded operator by operator, rounding, overflow and the
    non-finite floats are outside the model.  What Python does on a zero
    divisor is inside the model: [x / y] on floats raises
    [ZeroDivisionError], it never yields an infinity or a NaN. *)

From Stdlib Require Import QArith Qabs Qround Qminmax Lqa Qfield ZArith Lia List.
From stdpp Require Import base strings gmap.

Open Scope Q_scope.

(** ** Python primitives used by the two files *)

Module Py.

Inductive exn : Type :=
| ZeroDivisionError
| NameError (name : string).

(** Outcome of evaluating an expression or a call: a value, or an
    exception of type [E] on its way up. *)
Inductive res (E A : Type) : Type :=
| Ok (a : A)
| Raise (e : E).
Arguments Ok {E A} a.
Arguments Raise {E A} e.

#[global] Instance res_ret {E} : MRet (res E) := fun _ a => Ok a.
#[global] Instance res_bind {E} : MBind (res E) := fun _ _ f m =>
  match m with
  | Ok a => f a
  | Raise e => Raise e
  end.

(** Code that also acts on a store [S] (the terminal, the window): the
    store reached when an exception is raised is kept, as it is when a
    Python statement fails half-way through a sequence. *)
Definition st (S E A : Type) : Type := S -> S * res E A.

#[global] Instance st_ret {S E} : MRet (st S E) := fun _ a s => (s, Ok a).
#[global] Instance st_bind {S E} : MBind (st S E) := fun _ _ f m s =>
  match m s with
  | (s', Ok a) => f a s'
  | (s', Raise e) => (s', Raise e)
  end.

Definition lift {S E A} (r : res E A) : st S E A := fun s => (s, r).
Definition modify {S E} (f : S -> S) : st S E unit := fun s => (f s, Ok tt).

(** [x / y] on floats. *)
Definition truediv (x y : Q) : res exn Q :=
  if Qeq_bool y 0 then Raise ZeroDivisionError else Ok (x / y).

Definition lt (x y : Q) : bool := negb (Qle_bool y x).
Definition ge (x y : Q) : bool := Qle_bool y x.

(** [min(a, b)]: the first argument is kept unless the second is
    strictly smaller. *)
Definition min (a b : Q) : Q := if lt b a then b else a.

(** What [print] is given in the script. *)
Inductive value : Type :=
| Float (q : Q)
| Bool (b : bool)
| Str (s : string)
| FStr (before : string) (q : Q) (after : string).

End Py.

Import Py.

Notation "x // y" := (Py.truediv x y) (at level 40, left associativity).

(** ** numpy, in exact arithmetic *)

Module Np.

Definition indices (n : nat) : list Q :=
  map (fun i => inject_Z (Z.of_nat i)) (seq 0 n).

(** [np.linspace(start, stop)]: 50 samples, both ends included. *)
Definition linspace (start stop : Q) : list Q :=
  map (fun i => start + i * ((stop - start) / 49)) (indices 50).

(** [np.arange(start, stop, step)]: [ceil((stop - start)/step)] samples
    [start + i*step], none when that number is not positive.  The only
    call has a [step] that is a reciprocal, hence not zero. *)
Definition arange (start stop step : Q) : list Q :=
  map (fun i => start + i * step)
      (indices (Z.to_nat (Qceiling ((stop - start) / step)))).

(** A sample [amp * sin(2*pi*freq*t)], kept symbolic: its value is not a
    rational. *)
Record sine : Type := Sine { amp : Q; freq : Q; at_time : Q }.

End Np.

(** ** The stages *)

Inductive stage : Type :=
| StiffDivider_ | DCAnalysis_ | ACAnalysis_ | Qpoint_ | MPP_ | CurrentDrain_
| Power_ | DCLoadline_ | ACLoadline_ | Loadlineplot_ | Waveforms_.

(** An exception that left a stage: the innermost frame of the traceback
    and the exception. *)
Record traceback : Type := Traceback { frame : stage; exc : exn }.

Definition call {A} (f : stage) (r : res exn A) : res traceback A :=
  match r with
  | Ok a => Ok a
  | Raise e => Raise (Traceback f e)
  end.

(** The fourteen values read from the terminal or from the form. *)
Record InputRecord : Type := mkInput {
  VCC : Q; Beta : Q; RS : Q; R1 : Q; R2 : Q; RE1 : Q; RE2 : Q; RC : Q;
  RL : Q; Zg : Q; Vs : Q; VA : Q; Frequency : Q; Duration : Q }.

Record loadline_plot : Type := mkLoadlinePlot {
  xDC : list Q; yDC : list Q; xAC : list Q; yAC : list Q;
  xlim : Q * Q; ylim : Q * Q }.

Record waveform_plot : Type := mkWaveformPlot {
  t1 : list Q; a1 : list Np.sine; a2 : list Np.sine }.

(** *** CommonEmitterAnalysisApp.py *)

Module App.

Definition DCAnalysis (VCC Beta RS R1 R2 RE1 RE2 RC RL : Q)
  : res exn (Q * Q * Q * Q * Q) :=
  d ← R2 // (R2 + R1);
  let VB := VCC * d in
  let VE := VB - 0.7 in
  ICEQ ← VE // (RE1 + RE2);
  let VC := VCC - (ICEQ * RC) in
  let VCEQ := VC - VE in
  Ok (VB, VE, ICEQ, VC, VCEQ).

Definition ACAnalysis (ICEQ VCC Beta RS R1 R2 RE1 RE2 RC RL Zg Vs VA Frequency : Q)
  : res exn (Q * Q * Q * Q * Q * Q * Q * Q * Q) :=
  ro ← VA // ICEQ;
  re ← 0.025 // ICEQ;
  gC ← 1 // RC;
  gL ← 1 // RL;
  rc ← 1 // (gC + gL);
  let Zbase := (RE1 + re) * Beta in
  g1 ← 1 // R1;
  g2 ← 1 // R2;
  gb ← 1 // (Beta * (RE1 + re));
  p ← 1 // (g1 + g2 + gb);
  let Zin := RS + p in
  gC' ← 1 // RC;
  gL' ← 1 // RL;
  go ← 1 // ro;
  Zout ← 1 // (gC' + gL' + go);
  d ← Zin // (Zin + Zg + RS);
  let Vin := Vs * d in
  Av ← rc // (RE1 + re);
  let Vout := Av * Vin in
  Ok (ro, re, rc, Zbase, Zin, Zout, Vin, Av, Vout).

Definition Qpoint (VCC VE rc RC : Q) : res exn Q :=
  REop ← (VE * (RC + rc)) // (VCC - VE);
  Ok REop.

Definition MPP (VCEQ ICEQ rc : Q) : res exn Q :=
  let Mpp := Py.min (2 * (ICEQ * rc)) (2 * VCEQ) in
  Ok Mpp.

Definition CurrentDrain (VCC ICEQ R1 R2 : Q) : res exn (Q * Q) :=
  Ibias ← VCC // (R1 + R2);
  let IS := Ibias + ICEQ in
  Ok (Ibias, IS).

Definition Power (VCEQ ICEQ Mpp RL VCC IS : Q) : res exn (Q * Q * Q * Q) :=
  let PD := VCEQ * ICEQ in
  PL ← (Mpp ^ 2) // (8 * RL);
  let PS := VCC * IS in
  e ← PL // PS;
  let Efficiency := e * 100 in
  Ok (PD, PL, PS, Efficiency).

Definition DCLoadline (VCC VE RC : Q) : res exn (Q * Q) :=
  let VCEcutoff := VCC - VE in
  ICsaturation ← (VCC - VE) // RC;
  Ok (VCEcutoff, ICsaturation).

Definition ACLoadline (VCEQ ICEQ rc : Q) : res exn (Q * Q) :=
  let ACcutoff := VCEQ + (ICEQ * rc) in
  d ← VCEQ // rc;
  let ACsaturation := ICEQ + d in
  Ok (ACcutoff, ACsaturation).

(** [Loadlineplot] up to the point where the figure is complete; the
    figure is put on the window afterwards. *)
Definition Loadlineplot (VCEcutoff ICsaturation ACcutoff ACsaturation VCC rc : Q)
  : res exn loadline_plot :=
  let xDC := Np.linspace 0 VCEcutoff in
  let yDC := Np.linspace ICsaturation 0 in
  let xAC := Np.linspace ACcutoff 0 in
  let yAC := Np.linspace 0 ACsaturation in
  top ← VCC // rc;
  Ok (mkLoadlinePlot xDC yDC xAC yAC (0, VCC) (0, top)).

Definition Waveforms (Duration Frequency Vs Vout : Q) : res exn waveform_plot :=
  let T1 := Duration in
  let fs1 := 50 * Frequency in
  Ts1 ← 1 // fs1;
  let t1 := Np.arange 0 (T1 + Ts1) Ts1 in
  let a1 := map (Np.Sine Vs Frequency) t1 in
  let a2 := map (Np.Sine (-1 * Vout) Frequency) t1 in
  Ok (mkWaveformPlot t1 a1 a2).

(** The window: the text of the result labels (by name, the number each one
    shows; the six-decimal formatting is presentation) and the two
    embedded canvases. *)
Record gui : Type := mkGui {
  labels : gmap string Q;
  loadline_canvas : option loadline_plot;
  waveform_canvas : option waveform_plot }.

Definition config (name : string) (q : Q) : st gui traceback unit :=
  modify (fun w => mkGui (<[name := q]> (labels w))
                         (loadline_canvas w) (waveform_canvas w)).

Definition embed_loadline (p : loadline_plot) : st gui traceback unit :=
  modify (fun w => mkGui (labels w) (Some p) (waveform_canvas w)).

Definition embed_waveform (p : waveform_plot) : st gui traceback unit :=
  modify (fun w => mkGui (labels w) (loadline_canvas w) (Some p)).

Definition run {A} (f : stage) (r : res exn A) : st gui traceback A :=
  lift (call f r).

(** The callback of the Calculate button, on the fourteen entries already
    converted by [float]. *)
Definition calculate (i : InputRecord) : st gui traceback unit :=
  let '(mkInput VCC Beta RS R1 R2 RE1 RE2 RC RL Zg Vs VA Frequency Duration) := i in
  '(VB, VE, ICEQ, VC, VCEQ) ← run DCAnalysis_ (DCAnalysis VCC Beta RS R1 R2 RE1 RE2 RC RL);
  '(ro, re, rc, Zbase, Zin, Zout, Vin, Av, Vout) ←
    run ACAnalysis_ (ACAnalysis ICEQ VCC Beta RS R1 R2 RE1 RE2 RC RL Zg Vs VA Frequency);
  REop ← run Qpoint_ (Qpoint VCC VE rc RC);
  Mpp ← run MPP_ (MPP VCEQ ICEQ rc);
  '(Ibias, IS) ← run CurrentDrain_ (CurrentDrain VCC ICEQ R1 R2);
  '(PD, PL, PS, Efficiency) ← run Power_ (Power VCEQ ICEQ Mpp RL VCC IS);
  '(VCEcutoff, ICsaturation) ← run DCLoadline_ (DCLoadline VCC VE RC);
  '(ACcutoff, ACsaturation) ← run ACLoadline_ (ACLoadline VCEQ ICEQ rc);
  lp ← run Loadlineplot_ (Loadlineplot VCEcutoff ICsaturation ACcutoff ACsaturation VCC rc);
  embed_loadline lp;;
  wp ← run Waveforms_ (Waveforms Duration Frequency Vs Vout);
  embed_waveform wp;;
  config "VB" VB;; config "VE" VE;; config "ICEQ" ICEQ;; config "VC" VC;;
  config "VCEQ" VCEQ;; config "ro" ro;; config "re" re;; config "rc" rc;;
  config "Zbase" Zbase;; config "Zin" Zin;; config "Zout" Zout;;
  config "Vin" Vin;; config "Av" Av;; config "Vout" Vout;;
  config "REop" REop;; config "Mpp" Mpp;; config "Ibias" Ibias;;
  config "IS" IS;; config "PD" PD;; config "PL" PL;; config "PS" PS;;
  config "Efficiency" Efficiency;; config "VCEcutoff" VCEcutoff;;
  config "ICsaturation" ICsaturation;; config "ACcutoff" ACcutoff;;
  config "ACsaturation" ACsaturation.

(** The window before the first click: empty result labels, no canvas. *)
Definition fresh : gui := mkGui ∅ None None.

End App.

(** *** CommonEmitterAnalysis.py *)

Module Script.

(** What the run has put in front of the user so far, oldest first: the
    lines printed and the figures shown. *)
Inductive effect : Type :=
| Printed (v : value)
| ShownLoadline (p : loadline_plot)
| ShownWaveform (p : waveform_plot).

Definition io (E A : Type) : Type := st (list effect) E A.

Definition print {E} (v : value) : io E unit :=
  modify (fun out => out ++ [Printed v]).

Definition show {E} (f : effect) : io E unit :=
  modify (fun out => out ++ [f]).

(** The module namespace, as far as it holds floats.  A function that
    reads a name it has neither as a parameter nor as a local looks it up
    here when the statement runs. *)
Definition namespace : Type := gmap string Q.

Definition global (g : namespace) (name : string) : io exn Q :=
  lift (match g !! name with
        | Some q => Ok q
        | None => Raise (NameError name)
        end).

Definition div (x y : Q) : io exn Q := lift (x // y).

Definition StiffDivider (Beta RE1 RE2 R1 R2 : Q) : io exn unit :=
  let A := Beta * (RE1 + RE2) in
  g1 ← div 1 R1;
  g2 ← div 1 R2;
  p ← div 1 (g1 + g2);
  let B := 10 * p in
  let StiffDivider := Bool (Py.ge A B) in
  let StiffDivider :=
    match StiffDivider with
    | Bool false => Str "True"
    | v => v
    end in
  print StiffDivider.

Definition DCAnalysis (VCC Beta RS R1 R2 RE1 RE2 RC RL : Q) : io exn (Q * Q * Q * Q) :=
  d ← div R2 (R2 + R1);
  let VB := VCC * d in
  print (Float VB);;
  let VE := VB - 0.7 in
  print (Float VE);;
  ICEQ ← div VE (RE1 + RE2);
  print (Float ICEQ);;
  let VC := VCC - (ICEQ * RC) in
  print (Float VC);;
  let VCEQ := VC - VE in
  print (Float VCEQ);;
  mret (VE, ICEQ, VC, VCEQ).

Definition ACAnalysis (ICEQ VCC Beta RS R1 R2 RE1 RE2 RC RL Zg Vs VA Frequency : Q)
  : io exn (Q * Q * Q * Q * Q * Q * Q * Q * Q) :=
  ro ← div VA ICEQ;
  print (Float ro);;
  re ← div 0.025 ICEQ;
  print (Float re);;
  gC ← div 1 RC;
  gL ← div 1 RL;
  rc ← div 1 (gC + gL);
  print (Float rc);;
  let Zbase := (RE1 + re) * Beta in
  print (Float Zbase);;
  g1 ← div 1 R1;
  g2 ← div 1 R2;
  gb ← div 1 (Beta * (RE1 + re));
  p ← div 1 (g1 + g2 + gb);
  let Zin := RS + p in
  print (Float Zin);;
  gC' ← div 1 RC;
  gL' ← div 1 RL;
  go ← div 1 ro;
  Zout ← div 1 (gC' + gL' + go);
  print (Float Zout);;
  d ← div Zin (Zin + Zg + RS);
  let Vin := Vs * d in
  print (Float Vin);;
  Av ← div rc (RE1 + re);
  print (Float Av);;
  let Vout := Av * Vin in
  print (Float Vout);;
  mret (ro, re, rc, Zbase, Zin, Zout, Vin, Av, Vout).

Definition Qpoint (g : namespace) (VE rc : Q) : io exn Q :=
  RC ← global g "RC";
  VCC ← global g "VCC";
  REop ← div (VE * (RC + rc)) (VCC - VE);
  print (Float REop);;
  mret REop.

Definition MPP (VCEQ ICEQ rc : Q) : io exn Q :=
  let Mpp := Py.min (2 * (ICEQ * rc)) (2 * VCEQ) in
  print (Float Mpp);;
  mret Mpp.

Definition CurrentDrain (g : namespace) (ICEQ : Q) : io exn (Q * Q) :=
  VCC ← global g "VCC";
  R1 ← global g "R1";
  R2 ← global g "R2";
  Ibias ← div VCC (R1 + R2);
  print (Float Ibias);;
  let IS := Ibias + ICEQ in
  print (Float IS);;
  mret (Ibias, IS).

Definition Power (g : namespace) (VCEQ ICEQ IS : Q) : io exn (Q * Q * Q * Q) :=
  let PD := VCEQ * ICEQ in
  print (Float PD);;
  Mpp ← global g "Mpp";
  RL ← global g "RL";
  PL ← div (Mpp ^ 2) (8 * RL);
  print (Float PL);;
  VCC ← global g "VCC";
  let PS := VCC * IS in
  print (Float PS);;
  e ← div PL PS;
  let Efficiency := e * 100 in
  print (Float Efficiency);;
  mret (PD, PL, PS, Efficiency).

Definition DCLoadline (g : namespace) (VE : Q) : io exn (Q * Q) :=
  VCC ← global g "VCC";
  let VCEcutoff := VCC - VE in
  print (FStr "VCEcutoff: " VCEcutoff " V");;
  VCC' ← global g "VCC";
  RC ← global g "RC";
  ICsaturation ← div (VCC' - VE) RC;
  print (FStr "ICsaturation: " ICsaturation " A");;
  mret (VCEcutoff, ICsaturation).

Definition ACLoadline (VCEQ ICEQ rc : Q) : io exn (Q * Q) :=
  let ACcutoff := VCEQ + (ICEQ * rc) in
  print (FStr "ACcutoff: " ACcutoff " A");;
  d ← div VCEQ rc;
  let ACsaturation := ICEQ + d in
  print (FStr "ACsaturation: " ACsaturation " A");;
  mret (ACcutoff, ACsaturation).

Definition Loadlineplot (g : namespace) (VCEcutoff ICsaturation ACcutoff ACsaturation : Q)
  : io exn unit :=
  let xDC := Np.linspace 0 VCEcutoff in
  let yDC := Np.linspace ICsaturation 0 in
  let xAC := Np.linspace ACcutoff 0 in
  let yAC := Np.linspace 0 ACsaturation in
  VCC ← global g "VCC";
  VCC' ← global g "VCC";
  rc ← global g "rc";
  top ← div VCC' rc;
  show (ShownLoadline (mkLoadlinePlot xDC yDC xAC yAC (0, VCC) (0, top))).

Definition Waveforms (Duration Frequency Vs Vout : Q) : io exn unit :=
  let T1 := Duration in
  let fs1 := 50 * Frequency in
  Ts1 ← div 1 fs1;
  let t1 := Np.arange 0 (T1 + Ts1) Ts1 in
  let a1 := map (Np.Sine Vs Frequency) t1 in
  let a2 := map (Np.Sine (-1 * Vout) Frequency) t1 in
  show (ShownWaveform (mkWaveformPlot t1 a1 a2)).

(** A call made at module level: an exception leaves through the frame of
    the function called. *)
Definition run {A} (f : stage) (m : io exn A) : io traceback A :=
  fun out => let '(out', r) := m out in (out', call f r).

(** The namespace once the fourteen [float(input(...))] lines have run. *)
Definition inputs (i : InputRecord) : namespace :=
  let '(mkInput VCC Beta RS R1 R2 RE1 RE2 RC RL Zg Vs VA Frequency Duration) := i in
  <["Duration" := Duration]> (<["Frequency" := Frequency]> (<["VA" := VA]>
  (<["Vs" := Vs]> (<["Zg" := Zg]> (<["RL" := RL]> (<["RC" := RC]>
  (<["RE2" := RE2]> (<["RE1" := RE1]> (<["R2" := R2]> (<["R1" := R1]>
  (<["RS" := RS]> (<["Beta" := Beta]> (<["VCC" := VCC]> ∅))))))))))))).


End Script.

(** ** Reference inputs: the defaults of the form's fourteen entries *)

Definition reference : InputRecord :=
  mkInput 20 380 8000 10000000 620000 270 430 24000 2700 50 0.01 100 1000 0.002.

(** [x ≈ v] up to [tol]. *)
Definition approx (tol x v : Q) : Prop := Qabs (x - v) <= tol.

(** A stage raises nothing but [ZeroDivisionError]. *)
Definition only_zero_division {A} (r : res exn A) : Prop :=
  forall e, r = Raise e -> e = ZeroDivisionError.

(** * Properties *)

(** ** Division *)

Lemma truediv_ok (x y : Q) : ~ y == 0 -> x // y = Ok (x / y).
Proof.
  intros Hy. unfold truediv.
  destruct (Qeq_bool y 0) eqn:E; [|reflexivity].
  apply Qeq_bool_iff in E. contradiction.
Qed.


Lemma truediv_inv (x y q : Q) : x // y = Ok q -> ~ y == 0 /\ q = x / y.
Proof.
  unfold truediv. destruct (Qeq_bool y 0) eqn:E; [discriminate|].
  intros [= <-]. split; [|reflexivity].
  intros Hy. apply Qeq_bool_iff in Hy. congruence.
Qed.

Lemma truediv_raises (x y : Q) (e : exn) : x // y = Raise e -> e = ZeroDivisionError /\ y == 0.
Proof.
  unfold truediv. destruct (Qeq_bool y 0) eqn:E; [|discriminate].
  intros [= <-]. split; [reflexivity|]. now apply Qeq_bool_iff.
Qed.

Lemma bind_ok_inv {E A B} (m : res E A) (f : A -> res E B) (b : B) :
  m ≫= f = Ok b -> exists a, m = Ok a /\ f a = Ok b.
Proof. destruct m as [a|e]; [eauto|discriminate]. Qed.

(** Steps of a stage whose divisor is known not to be zero. *)
Ltac divide :=
  repeat (rewrite truediv_ok by assumption; cbn [mbind res_bind]).

(** ** Python's [min] is the minimum *)

Lemma min_Qmin (a b : Q) : Py.min a b = Qmin a b.
Proof.
  unfold Py.min, lt, Qmin, GenericMinMax.gmin, Qle_bool, Qcompare.
  destruct (Z.leb_spec (Qnum a * QDen b) (Qnum b * QDen a)) as [H|H];
    destruct (Z.compare_spec (Qnum a * QDen b) (Qnum b * QDen a));
    (reflexivity || lia).
Qed.

Lemma min_cases (a b : Q) :
  (a < b -> Py.min a b = a) /\ (b < a -> Py.min a b = b) /\ (a == b -> Py.min a b = a).
Proof.
  rewrite min_Qmin. repeat split; intros H.
  - unfold Qmin, GenericMinMax.gmin. now rewrite (proj1 (Qlt_alt a b) H).
  - unfold Qmin, GenericMinMax.gmin. now rewrite (proj1 (Qgt_alt a b) H).
  - unfold Qmin, GenericMinMax.gmin. now rewrite (proj1 (Qeq_alt a b) H).
Qed.

(** C1.  For every input the MPP stage returns
    [min(2*ICEQ*rc, 2*VCEQ)], in both files (the script also prints it):
    the value is below both bounds and is one of them, so it is the
    current-limited bound when that one is smaller, the voltage-limited bound
    when that one is smaller, and their common value on a tie; nothing else
    is combined into it. *)
Theorem MPP_is_min (VCEQ ICEQ rc : Q) (out : list Script.effect) :
  let Mpp := Qmin (2 * (ICEQ * rc)) (2 * VCEQ) in
  App.MPP VCEQ ICEQ rc = Ok Mpp /\
  Script.MPP VCEQ ICEQ rc out = (out ++ [Script.Printed (Float Mpp)], Ok Mpp) /\
  Mpp == Qmin (2 * ICEQ * rc) (2 * VCEQ) /\
  Mpp <= 2 * ICEQ * rc /\ Mpp <= 2 * VCEQ /\
  (Mpp == 2 * ICEQ * rc \/ Mpp == 2 * VCEQ).
Proof.
  intros Mpp. subst Mpp.
  assert (E : 2 * (ICEQ * rc) == 2 * ICEQ * rc) by ring.
  split; [|split; [|split; [|split; [|split]]]].
  - unfold App.MPP. now rewrite min_Qmin.
  - unfold Script.MPP. now rewrite min_Qmin.
  - now rewrite E.
  - rewrite <- E. apply Q.le_min_l.
  - apply Q.le_min_r.
  - rewrite <- E.
    destruct (Q.min_dec (2 * (ICEQ * rc)) (2 * VCEQ)) as [H|H]; rewrite H; [left|right]; reflexivity.
Qed.

(** ** Running the script's statements *)

Section ScriptSteps.

Context {A : Type} (out : list Script.effect).

Lemma io_div_ok (x y : Q) (k : Q -> Script.io exn A) :
  ~ y == 0 -> (Script.div x y ≫= k) out = k (x / y) out.
Proof.
  intros Hy. unfold Script.div, lift, mbind, st_bind. now rewrite truediv_ok.
Qed.


Lemma io_div_cases (x y : Q) (k : Q -> Script.io exn A) :
  (Script.div x y ≫= k) out =
  match x // y with
  | Ok q => k q out
  | Raise e => (out, Raise e)
  end.
Proof. unfold Script.div, lift, mbind, st_bind. now destruct (x // y). Qed.

Lemma io_print (v : value) (k : unit -> Script.io exn A) :
  (Script.print v ≫= k) out = k tt (out ++ [Script.Printed v]).
Proof. reflexivity. Qed.

Lemma io_global (g : Script.namespace) (name : string) (q : Q)
    (k : Q -> Script.io exn A) :
  g !! name = Some q -> (Script.global g name ≫= k) out = k q out.
Proof.
  intros Hg. unfold Script.global, lift, mbind, st_bind. now rewrite Hg.
Qed.

End ScriptSteps.

Ltac script :=
  repeat first
    [ rewrite io_print
    | rewrite io_div_ok by assumption
    | erewrite io_global by eassumption ];
  cbn [mret st_ret]; rewrite <- ?app_assoc; cbn [app].

(** ** The DC stage *)

(** C2.  With [R1+R2] and [RE1+RE2] not zero the DC stage returns, in
    the form's file, [VB = VCC*R2/(R1+R2)], [VE = VB - 0.7],
    [ICEQ = VE/(RE1+RE2)], [VC = VCC - ICEQ*RC] and [VCEQ = VC - VE]; the
    script prints the same five values and returns the last four. *)
Theorem DCAnalysis_equations (VCC Beta RS R1 R2 RE1 RE2 RC RL : Q)
    (out : list Script.effect) :
  ~ R1 + R2 == 0 -> ~ RE1 + RE2 == 0 ->
  exists VB VE ICEQ VC VCEQ,
    App.DCAnalysis VCC Beta RS R1 R2 RE1 RE2 RC RL = Ok (VB, VE, ICEQ, VC, VCEQ) /\
    Script.DCAnalysis VCC Beta RS R1 R2 RE1 RE2 RC RL out =
      (out ++ map Script.Printed [Float VB; Float VE; Float ICEQ; Float VC; Float VCEQ],
       Ok (VE, ICEQ, VC, VCEQ)) /\
    VB == VCC * R2 / (R1 + R2) /\
    VE == VB - 0.7 /\
    ICEQ == VE / (RE1 + RE2) /\
    VC == VCC - ICEQ * RC /\
    VCEQ == VC - VE.
Proof.
  intros H12 HE.
  assert (H21 : ~ R2 + R1 == 0) by (intros H; apply H12; rewrite <- H; ring).
  do 5 eexists. split; [|split].
  - unfold App.DCAnalysis. divide. reflexivity.
  - unfold Script.DCAnalysis. script. reflexivity.
  - repeat split; try reflexivity. field. exact H12.
Qed.

Lemma DCAnalysis_equations_witness :
  exists VB VE ICEQ VC VCEQ,
    App.DCAnalysis 20 380 8000 10000000 620000 270 430 24000 2700
      = Ok (VB, VE, ICEQ, VC, VCEQ) /\
    VC == 20 - ICEQ * 24000 /\ VCEQ == VC - VE.
Proof.
  destruct (DCAnalysis_equations 20 380 8000 10000000 620000 270 430 24000 2700 [])
    as (VB & VE & ICEQ & VC & VCEQ & H & _ & _ & _ & _ & HVC & HVCEQ).
  - vm_compute. discriminate.
  - vm_compute. discriminate.
  - exists VB, VE, ICEQ, VC, VCEQ. repeat split; assumption.
Defined.

(** ** Load lines *)

(** C10.  With [RC] and [rc] not zero, the intercepts returned by the two
    load-line stages satisfy [ICsaturation*RC = VCEcutoff] and
    [ACsaturation*rc = ACcutoff]: each pair lies on one line, of slope
    [-1/RC] for the DC pair and [-1/rc] for the AC pair.  The script, with
    [VCC] and [RC] bound in its namespace, returns the same pairs. *)
Theorem loadline_intercepts (g : Script.namespace) (VCC VE RC VCEQ ICEQ rc : Q)
    (out : list Script.effect) :
  ~ RC == 0 -> ~ rc == 0 ->
  g !! "VCC" = Some VCC -> g !! "RC" = Some RC ->
  exists VCEcutoff ICsaturation ACcutoff ACsaturation,
    App.DCLoadline VCC VE RC = Ok (VCEcutoff, ICsaturation) /\
    App.ACLoadline VCEQ ICEQ rc = Ok (ACcutoff, ACsaturation) /\
    snd (Script.DCLoadline g VE out) = Ok (VCEcutoff, ICsaturation) /\
    snd (Script.ACLoadline VCEQ ICEQ rc out) = Ok (ACcutoff, ACsaturation) /\
    ICsaturation * RC == VCEcutoff /\
    ACsaturation * rc == ACcutoff /\
    ICsaturation == (-1 / RC) * (0 - VCEcutoff) /\
    ACsaturation == (-1 / rc) * (0 - ACcutoff).
Proof.
  intros HRC Hrc HgV HgR.
  do 4 eexists. split; [|split; [|split; [|split]]].
  - unfold App.DCLoadline. divide. reflexivity.
  - unfold App.ACLoadline. divide. reflexivity.
  - unfold Script.DCLoadline. script. reflexivity.
  - unfold Script.ACLoadline. script. reflexivity.
  - repeat split; field; assumption.
Qed.

Lemma loadline_intercepts_witness :
  exists VCEcutoff ICsaturation ACcutoff ACsaturation,
    App.DCLoadline 20 (2483 # 5310) 24000 = Ok (VCEcutoff, ICsaturation) /\
    App.ACLoadline (130099 # 37170) (2483 # 3717000) (216000 # 89)
      = Ok (ACcutoff, ACsaturation) /\
    ICsaturation * 24000 == VCEcutoff /\
    ACsaturation * (216000 # 89) == ACcutoff.
Proof.
  destruct (loadline_intercepts (Script.inputs reference)
              20 (2483 # 5310) 24000 (130099 # 37170) (2483 # 3717000) (216000 # 89) [])
    as (a & b & c & d & H1 & H2 & _ & _ & H3 & H4 & _).
  - vm_compute. discriminate.
  - vm_compute. discriminate.
  - reflexivity.
  - reflexivity.
  - exists a, b, c, d. repeat split; assumption.
Defined.

(** ** The reference scenario *)

Ltac refute_approx :=
  let H := fresh in
  unfold approx; intros H; apply Qle_bool_iff in H; vm_compute in H; discriminate H.

Ltac check_approx :=
  unfold approx; apply Qle_bool_iff; vm_compute; reflexivity.

(** On the defaults of the form the DC stage does not return the four
    values the specification quotes: each one is off by far more than the
    last digit quoted. *)
Lemma reference_DC_not_as_quoted :
  exists VB VE ICEQ VC VCEQ,
    App.DCAnalysis 20 380 8000 10000000 620000 270 430 24000 2700
      = Ok (VB, VE, ICEQ, VC, VCEQ) /\
    ~ approx 0.05 VB 1.2258 /\
    ~ approx 0.05 VE 0.5258 /\
    ~ approx 0.00005 ICEQ 0.000752 /\
    ~ approx 1 VC 1.9786.
Proof.
  do 5 eexists. split; [vm_compute; reflexivity|].
  repeat split; refute_approx.
Qed.

(** C5 (amended).  On the defaults of the form ([VCC=20], [R1=1e7],
    [R2=620000], [RE1=270], [RE2=430], [RC=24000]) the DC stage returns
    [VB = 620/531 ≈ 1.1676], [VE = 2483/5310 ≈ 0.4676],
    [ICEQ = 2483/3717000 ≈ 0.000668] and [VC = 4916/1239 ≈ 3.9677], each to
    half a unit of its last digit; the script prints these values. *)
Theorem reference_DC_values :
  exists VB VE ICEQ VC VCEQ,
    App.DCAnalysis 20 380 8000 10000000 620000 270 430 24000 2700
      = Ok (VB, VE, ICEQ, VC, VCEQ) /\
    Script.DCAnalysis 20 380 8000 10000000 620000 270 430 24000 2700 []
      = (map Script.Printed [Float VB; Float VE; Float ICEQ; Float VC; Float VCEQ],
         Ok (VE, ICEQ, VC, VCEQ)) /\
    (VB == 620 # 531 /\ VE == 2483 # 5310 /\
     ICEQ == 2483 # 3717000 /\ VC == 4916 # 1239) /\
    approx 0.00005 VB 1.1676 /\
    approx 0.00005 VE 0.4676 /\
    approx 0.0000005 ICEQ 0.000668 /\
    approx 0.00005 VC 3.9677.
Proof.
  do 5 eexists. split; [vm_compute; reflexivity|].
  split; [vm_compute; reflexivity|].
  split; [repeat split; vm_compute; reflexivity|].
  repeat split; check_approx.
Qed.

(** ** The stiff-divider check *)

(** The script never reports that the divider is not stiff: whenever
    [StiffDivider] returns, the line it has printed is [True] or the string
    ['True'], and the call itself returns nothing. *)
Lemma StiffDivider_never_False (Beta RE1 RE2 R1 R2 : Q)
    (out out' : list Script.effect) :
  Script.StiffDivider Beta RE1 RE2 R1 R2 out = (out', Ok tt) ->
  (Py.ge (Beta * (RE1 + RE2)) (10 * (1 / (1 / R1 + 1 / R2))) = true /\
   out' = out ++ [Script.Printed (Bool true)]) \/
  (Py.ge (Beta * (RE1 + RE2)) (10 * (1 / (1 / R1 + 1 / R2))) = false /\
   out' = out ++ [Script.Printed (Str "True")]).
Proof.
  unfold Script.StiffDivider. rewrite !io_div_cases.
  destruct (1 // R1) as [g1|] eqn:E1; [|discriminate].
  apply truediv_inv in E1 as [_ ->]. rewrite io_div_cases.
  destruct (1 // R2) as [g2|] eqn:E2; [|discriminate].
  apply truediv_inv in E2 as [_ ->]. rewrite io_div_cases.
  destruct (1 // (1 / R1 + 1 / R2)) as [p|] eqn:E3; [|discriminate].
  apply truediv_inv in E3 as [_ ->].
  destruct (Py.ge _ _); intros [= <-]; [left|right]; split; reflexivity.
Qed.

(** C4 (the code at an input where the divider is not stiff).  On the
    defaults of the form [A = 380*700 = 266000] is below
    [B = 10*(R1 || R2)], so [A >= B] is [False]; the script replaces it by
    the string ['True'], prints that, and returns nothing. *)
Theorem StiffDivider_reports_True_when_False :
  Py.ge (380 * (270 + 430)) (10 * (1 / (1 / 10000000 + 1 / 620000))) = false /\
  Script.StiffDivider 380 270 430 10000000 620000 []
    = ([Script.Printed (Str "True")], Ok tt).
Proof. split; vm_compute; reflexivity. Qed.

(** ** The AC stage *)

(** The AC stage divides by [Zin + Zg + RS] as well: with every divisor
    and every sum of reciprocals named for [Zin], [Zout] and [rc] different
    from zero, a source impedance [Zg = -(Zin + RS)] makes the stage raise
    at [Vin].  Here [re = 1], [Zbase = 2], [Zin = 1 + 1/(1/4+1/4+1/2) = 2]
    and [Zin + Zg + RS = 2 - 3 + 1 = 0]. *)
Lemma ACAnalysis_raises_at_Vin :
  (~ 0.025 == 0 /\ ~ 4 == 0 /\ ~ 2 == 0 /\
   ~ 1 * (1 + 0.025 / 0.025) == 0 /\
   ~ 1 / 2 + 1 / 2 == 0 /\
   ~ 1 / 4 + 1 / 4 + 1 / (1 * (1 + 0.025 / 0.025)) == 0 /\
   ~ 1 / 2 + 1 / 2 + 1 / (100 / 0.025) == 0) /\
  App.ACAnalysis 0.025 20 1 1 4 4 1 1 2 2 (-3) 0.01 100 1000
    = Raise ZeroDivisionError /\
  snd (Script.ACAnalysis 0.025 20 1 1 4 4 1 1 2 2 (-3) 0.01 100 1000 [])
    = Raise ZeroDivisionError.
Proof.
  split; [|split; vm_compute; reflexivity].
  repeat split; vm_compute; discriminate.
Qed.

(** It divides by [ro = VA/ICEQ] too: an Early voltage [VA = 0] makes it
    raise at [Zout]. *)
Lemma ACAnalysis_raises_at_Zout :
  App.ACAnalysis 0.025 20 1 1 4 4 1 1 2 2 50 0.01 0 1000 = Raise ZeroDivisionError.
Proof. vm_compute. reflexivity. Qed.

(** C3 (amended).  With [ICEQ], [VA], [R1], [R2], [RC], [RL],
    [Beta*(RE1+re)], the three sums of reciprocals and [Zin+Zg+RS] all
    different from zero, the AC stage returns [ro = VA/ICEQ],
    [re = 0.025/ICEQ], [rc = 1/(1/RC+1/RL)], [Zbase = Beta*(RE1+re)],
    [Zin = RS + 1/(1/R1+1/R2+1/(Beta*(RE1+re)))],
    [Zout = 1/(1/RC+1/RL+1/ro)], [Vin = Vs*Zin/(Zin+Zg+RS)],
    [Av = rc/(RE1+re)] and [Vout = Av*Vin]; the script prints the nine
    values and returns them. *)
Theorem ACAnalysis_equations
    (ICEQ VCC Beta RS R1 R2 RE1 RE2 RC RL Zg Vs VA Frequency : Q)
    (out : list Script.effect) :
  ~ ICEQ == 0 -> ~ VA == 0 ->
  ~ R1 == 0 -> ~ R2 == 0 -> ~ RC == 0 -> ~ RL == 0 ->
  ~ Beta * (RE1 + 0.025 / ICEQ) == 0 ->
  ~ 1 / RC + 1 / RL == 0 ->
  ~ 1 / R1 + 1 / R2 + 1 / (Beta * (RE1 + 0.025 / ICEQ)) == 0 ->
  ~ 1 / RC + 1 / RL + 1 / (VA / ICEQ) == 0 ->
  ~ RS + 1 / (1 / R1 + 1 / R2 + 1 / (Beta * (RE1 + 0.025 / ICEQ))) + Zg + RS == 0 ->
  exists ro re rc Zbase Zin Zout Vin Av Vout,
    App.ACAnalysis ICEQ VCC Beta RS R1 R2 RE1 RE2 RC RL Zg Vs VA Frequency
      = Ok (ro, re, rc, Zbase, Zin, Zout, Vin, Av, Vout) /\
    Script.ACAnalysis ICEQ VCC Beta RS R1 R2 RE1 RE2 RC RL Zg Vs VA Frequency out
      = (out ++ map Script.Printed
                  [Float ro; Float re; Float rc; Float Zbase; Float Zin;
                   Float Zout; Float Vin; Float Av; Float Vout],
         Ok (ro, re, rc, Zbase, Zin, Zout, Vin, Av, Vout)) /\
    ro == VA / ICEQ /\
    re == 0.025 / ICEQ /\
    rc == / (1 / RC + 1 / RL) /\
    Zbase == Beta * (RE1 + re) /\
    Zin == RS + / (1 / R1 + 1 / R2 + 1 / (Beta * (RE1 + re))) /\
    Zout == / (1 / RC + 1 / RL + 1 / ro) /\
    Vin == Vs * Zin / (Zin + Zg + RS) /\
    Av == rc / (RE1 + re) /\
    Vout == Av * Vin.
Proof.
  intros HI HVA H1 H2 HC HL HZb HsC HsB HsO HsV.
  assert (Hre : ~ RE1 + 0.025 / ICEQ == 0).
  { intros H. apply HZb. rewrite H. ring. }
  assert (Hro : ~ VA / ICEQ == 0).
  { intros H. apply HVA.
    assert (E : VA == VA / ICEQ * ICEQ) by (field; exact HI).
    rewrite E, H. ring. }
  do 9 eexists. split; [|split].
  - unfold App.ACAnalysis. divide. reflexivity.
  - unfold Script.ACAnalysis. script. reflexivity.
  - repeat split; try reflexivity; unfold Qdiv; ring.
Qed.

Lemma ACAnalysis_equations_witness :
  exists ro re rc Zbase Zin Zout Vin Av Vout,
    App.ACAnalysis (2483 # 3717000) 20 380 8000 10000000 620000 270 430 24000 2700
                   50 0.01 100 1000
      = Ok (ro, re, rc, Zbase, Zin, Zout, Vin, Av, Vout) /\
    rc == / (1 / 24000 + 1 / 2700) /\ Vout == Av * Vin.
Proof.
  destruct (ACAnalysis_equations (2483 # 3717000) 20 380 8000 10000000 620000 270 430
              24000 2700 50 0.01 100 1000 [])
    as (ro & re & rc & Zbase & Zin & Zout & Vin & Av & Vout
        & H & _ & _ & _ & Hrc & _ & _ & _ & _ & _ & HVout);
    try (vm_compute; discriminate).
  exists ro, re, rc, Zbase, Zin, Zout, Vin, Av, Vout. repeat split; assumption.
Defined.

(** ** The two files compute the same stages *)

(** One statement of the script against the corresponding one of the
    form's file: a division is followed into both outcomes. *)
Ltac both_sides :=
  repeat first
    [ rewrite io_print
    | erewrite io_global by eassumption
    | rewrite io_div_cases;
      first
        [ match goal with
          | H : ?x // ?y = _
            |- context [match ?x // ?y with Ok _ => _ | Raise _ => _ end] =>
              rewrite H
          end
        | match goal with
          | |- context [match ?x // ?y with Ok _ => _ | Raise _ => _ end] =>
              let E := fresh "E" in destruct (x // y) eqn:E
          end ];
      cbn [mbind res_bind snd] ];
  try reflexivity.

(** C9.  With the script's globals [VCC], [RC], [R1], [R2], [RL], [Mpp]
    and [rc] bound to the values the form's file passes as parameters, every
    computation stage of the script returns what the stage of the same name
    returns in the form's file, a value or the exception alike; the script's
    DC stage leaves out [VB], which it only prints.  In particular
    [Qpoint(VE, rc)] of the script is [Qpoint(VCC, VE, rc, RC)] of the
    form's file, [VE*(RC+rc)/(VCC-VE)] on the same [RC] and [VCC]. *)
Theorem script_stages_agree_with_app
    (g : Script.namespace) (VCC RC R1 R2 RL Mpp rc : Q) :
  g !! "VCC" = Some VCC -> g !! "RC" = Some RC ->
  g !! "R1" = Some R1 -> g !! "R2" = Some R2 -> g !! "RL" = Some RL ->
  g !! "Mpp" = Some Mpp -> g !! "rc" = Some rc ->
  forall out : list Script.effect,
  (forall Beta RS RE1 RE2,
     snd (Script.DCAnalysis VCC Beta RS R1 R2 RE1 RE2 RC RL out) =
     App.DCAnalysis VCC Beta RS R1 R2 RE1 RE2 RC RL ≫=
       (fun '(VB, VE, ICEQ, VC, VCEQ) => Ok (VE, ICEQ, VC, VCEQ))) /\
  (forall ICEQ Beta RS RE1 RE2 Zg Vs VA Frequency,
     snd (Script.ACAnalysis ICEQ VCC Beta RS R1 R2 RE1 RE2 RC RL Zg Vs VA Frequency out) =
     App.ACAnalysis ICEQ VCC Beta RS R1 R2 RE1 RE2 RC RL Zg Vs VA Frequency) /\
  (forall VE rc', snd (Script.Qpoint g VE rc' out) = App.Qpoint VCC VE rc' RC) /\
  (forall VE rc' REop,
     snd (Script.Qpoint g VE rc' out) = Ok REop ->
     REop == VE * (RC + rc') / (VCC - VE)) /\
  (forall VCEQ ICEQ rc', snd (Script.MPP VCEQ ICEQ rc' out) = App.MPP VCEQ ICEQ rc') /\
  (forall ICEQ, snd (Script.CurrentDrain g ICEQ out) = App.CurrentDrain VCC ICEQ R1 R2) /\
  (forall VCEQ ICEQ IS,
     snd (Script.Power g VCEQ ICEQ IS out) = App.Power VCEQ ICEQ Mpp RL VCC IS) /\
  (forall VE, snd (Script.DCLoadline g VE out) = App.DCLoadline VCC VE RC) /\
  (forall VCEQ ICEQ rc',
     snd (Script.ACLoadline VCEQ ICEQ rc' out) = App.ACLoadline VCEQ ICEQ rc') /\
  (forall VCEcutoff ICsaturation ACcutoff ACsaturation,
     Script.Loadlineplot g VCEcutoff ICsaturation ACcutoff ACsaturation out =
     match App.Loadlineplot VCEcutoff ICsaturation ACcutoff ACsaturation VCC rc with
     | Ok p => (out ++ [Script.ShownLoadline p], Ok tt)
     | Raise e => (out, Raise e)
     end) /\
  (forall Duration Frequency Vs Vout,
     Script.Waveforms Duration Frequency Vs Vout out =
     match App.Waveforms Duration Frequency Vs Vout with
     | Ok p => (out ++ [Script.ShownWaveform p], Ok tt)
     | Raise e => (out, Raise e)
     end).
Proof.
  intros HVCC HRC HR1 HR2 HRL HMpp Hrc out.
  repeat match goal with |- _ /\ _ => split end; intros.
  - unfold Script.DCAnalysis, App.DCAnalysis. both_sides.
  - unfold Script.ACAnalysis, App.ACAnalysis. both_sides.
  - unfold Script.Qpoint, App.Qpoint. both_sides.
  - revert H. unfold Script.Qpoint.
    erewrite !io_global by eassumption. rewrite io_div_cases.
    destruct (_ // _) as [q|] eqn:E; [|discriminate].
    apply truediv_inv in E as [_ ->]. rewrite io_print. intros [= <-]. reflexivity.
  - reflexivity.
  - unfold Script.CurrentDrain, App.CurrentDrain. both_sides.
  - unfold Script.Power, App.Power. both_sides.
  - unfold Script.DCLoadline, App.DCLoadline. both_sides.
  - unfold Script.ACLoadline, App.ACLoadline. both_sides.
  - unfold Script.Loadlineplot, App.Loadlineplot. both_sides.
  - unfold Script.Waveforms, App.Waveforms. both_sides.
Qed.

Lemma script_stages_agree_with_app_witness :
  snd (Script.Qpoint (<["rc" := 216000 # 89]> (<["Mpp" := 119184 # 36757]>
                        (Script.inputs reference))) (2483 # 5310) (216000 # 89) [])
  = App.Qpoint 20 (2483 # 5310) (216000 # 89) 24000.
Proof.
  refine (proj1 (proj2 (proj2
    (script_stages_agree_with_app
       (<["rc" := 216000 # 89]> (<["Mpp" := 119184 # 36757]> (Script.inputs reference)))
       20 24000 10000000 620000 2700 (119184 # 36757) (216000 # 89)
       _ _ _ _ _ _ _ []))) (2483 # 5310) (216000 # 89)); reflexivity.
Defined.

(** ** The time grid of the waveform plot *)












(** ** Power and efficiency *)

(** Inversion of a stage of the form's file that has returned: every
    division it made had a divisor different from zero. *)
Ltac returned H :=
  cbv zeta in H;
  repeat match type of H with
    | _ ≫= _ = Ok _ =>
        let a := fresh "q" in
        let Ha := fresh "Hq" in
        apply bind_ok_inv in H as (a & Ha & H);
        apply truediv_inv in Ha as [? ->];
        cbv zeta in H
    end.

Lemma min_bounds (a b : Q) :
  Py.min a b <= a /\ Py.min a b <= b /\ (0 <= a -> 0 <= b -> 0 <= Py.min a b).
Proof.
  rewrite min_Qmin. split; [apply Q.le_min_l|]. split; [apply Q.le_min_r|].
  intros Ha Hb. now apply Q.min_glb.
Qed.

Lemma parallel_bounds (RC RL : Q) :
  0 < RC -> 0 < RL -> 0 < 1 / (1 / RC + 1 / RL) <= RL.
Proof.
  intros HC HL.
  assert (E : 1 / (1 / RC + 1 / RL) == RC * RL / (RC + RL)) by (field; lra).
  rewrite E. split.
  - apply Qlt_shift_div_l; [lra|]. rewrite Qmult_0_l. apply Qmult_lt_0_compat; assumption.
  - apply Qle_shift_div_r; [lra|]. nra.
Qed.

(** With the reference inputs and [RC = 100000] every resistance, [ICEQ],
    [Ibias] and [PS] are positive, the collector sits below the emitter
    ([VCEQ < 0]), [Mpp = 2*VCEQ] is negative and the efficiency returned is
    above 100. *)
Lemma efficiency_above_100 :
  exists VB VE ICEQ VC VCEQ ro re rc Zbase Zin Zout Vin Av Vout Mpp Ibias IS PD PL PS Efficiency,
    App.DCAnalysis 20 380 8000 10000000 620000 270 430 100000 2700
      = Ok (VB, VE, ICEQ, VC, VCEQ) /\
    App.ACAnalysis ICEQ 20 380 8000 10000000 620000 270 430 100000 2700 50 0.01 100 1000
      = Ok (ro, re, rc, Zbase, Zin, Zout, Vin, Av, Vout) /\
    App.MPP VCEQ ICEQ rc = Ok Mpp /\
    App.CurrentDrain 20 ICEQ 10000000 620000 = Ok (Ibias, IS) /\
    App.Power VCEQ ICEQ Mpp 2700 20 IS = Ok (PD, PL, PS, Efficiency) /\
    0 < ICEQ /\ 0 < Ibias /\ 0 < PS /\ 100 < Efficiency.
Proof.
  do 21 eexists.
  repeat match goal with |- _ /\ _ => split end; vm_compute; reflexivity.
Qed.

Lemma efficiency_bound (VCC RL rc ICEQ VCEQ Ibias : Q) :
  0 < VCC -> 0 < RL -> 0 < rc <= RL -> 0 < ICEQ -> 0 <= VCEQ <= VCC -> 0 < Ibias ->
  0 < VCC * (Ibias + ICEQ) /\
  0 <= Py.min (2 * (ICEQ * rc)) (2 * VCEQ) ^ 2 / (8 * RL) / (VCC * (Ibias + ICEQ)) * 100
    <= 100.
Proof.
  intros HVCC HRL [Hrc Hrc'] HI [HV HV'] HIb.
  destruct (min_bounds (2 * (ICEQ * rc)) (2 * VCEQ)) as (Ha & Hb & H0).
  assert (Hm : 0 <= Py.min (2 * (ICEQ * rc)) (2 * VCEQ)).
  { apply H0; [|lra]. assert (0 < ICEQ * rc) by (apply Qmult_lt_0_compat; assumption). lra. }
  clear H0. set (m := Py.min (2 * (ICEQ * rc)) (2 * VCEQ)) in *.
  change (m ^ 2) with (m * m).
  assert (HPS : 0 < VCC * (Ibias + ICEQ)) by (apply Qmult_lt_0_compat; lra).
  assert (Hmm : m * m <= 4 * (ICEQ * RL) * VCC).
  { assert (0 <= ICEQ * rc <= ICEQ * RL) by nra.
    assert (m * m <= 2 * (ICEQ * rc) * (2 * VCEQ)) by nra.
    assert (ICEQ * rc * VCEQ <= ICEQ * RL * VCC) by nra.
    nra. }
  assert (HPL : 0 <= m * m / (8 * RL) <= VCC * (Ibias + ICEQ)).
  { split.
    - apply Qle_shift_div_l; [lra|]. nra.
    - apply Qle_shift_div_r; [lra|]. nra. }
  split; [exact HPS|].
  set (PL := m * m / (8 * RL)) in *. set (PS := VCC * (Ibias + ICEQ)) in *.
  assert (0 <= PL / PS <= 1).
  { split.
    - apply Qle_shift_div_l; [exact HPS|]. lra.
    - apply Qle_shift_div_r; [exact HPS|]. lra. }
  lra.
Qed.

(** C6 (amended).  For every input with positive [R1], [R2], [RE1],
    [RE2], [RC], [RL], on which the DC and AC stages return with [ICEQ > 0],
    with [Ibias = VCC/(R1+R2) > 0] and, in addition, [VCEQ >= 0]: the MPP,
    current-drain and power stages return, [PS > 0], and the efficiency
    [100*PL/PS], with [PL = Mpp^2/(8*RL)] and [PS = VCC*IS], lies in
    [[0, 100]].  The script's power stage, reading [Mpp], [RL] and [VCC] from
    its namespace, returns the same four values. *)
Theorem efficiency_in_range
    (VCC Beta RS R1 R2 RE1 RE2 RC RL Zg Vs VA Frequency : Q)
    (VB VE ICEQ VC VCEQ ro re rc Zbase Zin Zout Vin Av Vout : Q) :
  0 < R1 -> 0 < R2 -> 0 < RE1 -> 0 < RE2 -> 0 < RC -> 0 < RL ->
  App.DCAnalysis VCC Beta RS R1 R2 RE1 RE2 RC RL = Ok (VB, VE, ICEQ, VC, VCEQ) ->
  App.ACAnalysis ICEQ VCC Beta RS R1 R2 RE1 RE2 RC RL Zg Vs VA Frequency
    = Ok (ro, re, rc, Zbase, Zin, Zout, Vin, Av, Vout) ->
  0 < ICEQ -> 0 < VCC / (R1 + R2) -> 0 <= VCEQ ->
  exists Mpp Ibias IS PD PL PS Efficiency,
    App.MPP VCEQ ICEQ rc = Ok Mpp /\
    App.CurrentDrain VCC ICEQ R1 R2 = Ok (Ibias, IS) /\
    App.Power VCEQ ICEQ Mpp RL VCC IS = Ok (PD, PL, PS, Efficiency) /\
    (forall g out,
       g !! "Mpp" = Some Mpp -> g !! "RL" = Some RL -> g !! "VCC" = Some VCC ->
       snd (Script.Power g VCEQ ICEQ IS out) = Ok (PD, PL, PS, Efficiency)) /\
    PL == Mpp ^ 2 / (8 * RL) /\ PS == VCC * IS /\ Efficiency == 100 * PL / PS /\
    0 < PS /\ 0 <= Efficiency <= 100.
Proof.
  intros H1 H2 HE1 HE2 HC HL HDC HAC HI HIb HV.
  unfold App.DCAnalysis in HDC. returned HDC.
  injection HDC as EVB EVE EI EVC EV.
  rewrite EVB in EVE, EI, EVC, EV. rewrite EVE in EI, EVC, EV.
  rewrite EI in EVC, EV. rewrite EVC in EV.
  unfold App.ACAnalysis in HAC. returned HAC.
  assert (Erc : 1 / (1 / RC + 1 / RL) = rc) by congruence.
  clear HAC.
  assert (HVCC : 0 < VCC).
  { assert (E : VCC == VCC / (R1 + R2) * (R1 + R2)) by (field; lra).
    rewrite E. apply Qmult_lt_0_compat; lra. }
  assert (HVE : 0 < VE).
  { assert (E : VE == ICEQ * (RE1 + RE2)) by (rewrite <- EI; field; lra).
    rewrite E. apply Qmult_lt_0_compat; lra. }
  assert (HVle : VCEQ <= VCC).
  { rewrite <- EV, <- EVC. assert (0 < ICEQ * RC) by (apply Qmult_lt_0_compat; lra). lra. }
  pose proof (parallel_bounds RC RL HC HL) as Hrc. rewrite Erc in Hrc.
  destruct (efficiency_bound VCC RL rc ICEQ VCEQ (VCC / (R1 + R2)))
    as (HPS & Hlo & Hhi); try assumption; [split; assumption|].
  assert (Hs12 : ~ R1 + R2 == 0) by lra.
  assert (Hs8 : ~ 8 * RL == 0) by lra.
  assert (HPS' : ~ VCC * (VCC / (R1 + R2) + ICEQ) == 0) by lra.
  exists (Py.min (2 * (ICEQ * rc)) (2 * VCEQ)), (VCC / (R1 + R2)),
         (VCC / (R1 + R2) + ICEQ), (VCEQ * ICEQ),
         (Py.min (2 * (ICEQ * rc)) (2 * VCEQ) ^ 2 / (8 * RL)),
         (VCC * (VCC / (R1 + R2) + ICEQ)),
         (Py.min (2 * (ICEQ * rc)) (2 * VCEQ) ^ 2 / (8 * RL)
            / (VCC * (VCC / (R1 + R2) + ICEQ)) * 100).
  split; [reflexivity|].
  split; [unfold App.CurrentDrain; divide; reflexivity|].
  split; [unfold App.Power; divide; reflexivity|].
  split.
  { intros g out Hg1 Hg2 Hg3. unfold Script.Power. script. reflexivity. }
  split; [reflexivity|]. split; [reflexivity|].
  split; [unfold Qdiv; ring|].
  split; [exact HPS|]. split; assumption.
Qed.

Lemma efficiency_in_range_witness :
  exists Efficiency, 0 <= Efficiency <= 100.
Proof.
  edestruct (efficiency_in_range 20 380 8000 10000000 620000 270 430 24000 2700
               50 0.01 100 1000)
    as (Mpp & Ibias & IS & PD & PL & PS & Eff & _ & _ & _ & _ & _ & _ & _ & _ & H).
  1-6: reflexivity.
  - vm_compute. reflexivity.
  - vm_compute. reflexivity.
  - reflexivity.
  - reflexivity.
  - vm_compute. discriminate.
  - exists Eff. exact H.
Defined.

(** ** Zero divisors *)

Lemma only_truediv (x y : Q) : only_zero_division (x // y).
Proof. intros e H. now apply truediv_raises in H. Qed.

Lemma only_Ok {A} (a : A) : only_zero_division (Ok a).
Proof. intros e H. discriminate. Qed.

Lemma only_bind {A B} (m : res exn A) (k : A -> res exn B) :
  only_zero_division m -> (forall a, only_zero_division (k a)) ->
  only_zero_division (m ≫= k).
Proof.
  intros Hm Hk e. destruct m as [a|e']; cbn.
  - apply Hk.
  - intros [= <-]. now apply Hm.
Qed.

Ltac only_zdiv :=
  cbv zeta;
  repeat first
    [ apply only_Ok
    | apply only_truediv
    | apply only_bind; [|intros ?; cbv zeta] ].

Lemma App_stages_only_zero_division :
  (forall a b c d e f g h i, only_zero_division (App.DCAnalysis a b c d e f g h i)) /\
  (forall a b c d e f g h i j k l m n,
     only_zero_division (App.ACAnalysis a b c d e f g h i j k l m n)) /\
  (forall a b c d, only_zero_division (App.Qpoint a b c d)) /\
  (forall a b c, only_zero_division (App.MPP a b c)) /\
  (forall a b c d, only_zero_division (App.CurrentDrain a b c d)) /\
  (forall a b c d e f, only_zero_division (App.Power a b c d e f)) /\
  (forall a b c, only_zero_division (App.DCLoadline a b c)) /\
  (forall a b c, only_zero_division (App.ACLoadline a b c)) /\
  (forall a b c d e f, only_zero_division (App.Loadlineplot a b c d e f)) /\
  (forall a b c d, only_zero_division (App.Waveforms a b c d)).
Proof.
  repeat match goal with |- _ /\ _ => split end; intros;
    unfold App.DCAnalysis, App.ACAnalysis, App.Qpoint, App.MPP, App.CurrentDrain,
      App.Power, App.DCLoadline, App.ACLoadline, App.Loadlineplot, App.Waveforms;
    only_zdiv.
Qed.

Lemma run_bind {A B} (f : stage) (r : res exn A) (k : A -> st App.gui traceback B)
    (w : App.gui) :
  (App.run f r ≫= k) w =
  match r with
  | Ok a => k a w
  | Raise e => (w, Raise (Traceback f e))
  end.
Proof. unfold App.run, lift, call, mbind, st_bind. now destruct r. Qed.

Lemma modify_bind {S E B} (f : S -> S) (k : unit -> st S E B) (s : S) :
  (modify f ≫= k) s = k tt (f s).
Proof. reflexivity. Qed.





(** One call of [calculate]: the stage returns, or its exception ends the
    callback with the window as it is at that point. *)
Ltac stage_call :=
  rewrite run_bind;
  match goal with
  | |- context [match ?r with Ok _ => _ | Raise _ => _ end] =>
      let Hs := fresh "Hs" in
      destruct r as [?|?] eqn:Hs
  end.

Ltac raised O :=
  let H := fresh in
  intros H; injection H as <- <-; cbn [frame exc];
  split; [eapply O; eassumption|];
  split; [try reflexivity; try discriminate|try discriminate].

Lemma calculate_raise (i : InputRecord) (w w' : App.gui) (tb : traceback) :
  App.calculate i w = (w', Raise tb) ->
  exc tb = ZeroDivisionError /\
  (frame tb <> Waveforms_ -> w' = w) /\
  (frame tb = Waveforms_ ->
   App.labels w' = App.labels w /\ App.waveform_canvas w' = App.waveform_canvas w).
Proof.
  destruct i. unfold App.calculate.
  destruct App_stages_only_zero_division
    as (O1 & O2 & O3 & O4 & O5 & O6 & O7 & O8 & O9 & O10).
  stage_call; [|raised O1].
  repeat match goal with p : (_ * _)%type |- _ => destruct p end.
  stage_call; [|raised O2].
  repeat match goal with p : (_ * _)%type |- _ => destruct p end.
  stage_call; [|raised O3].
  stage_call; [|raised O4].
  stage_call; [|raised O5].
  repeat match goal with p : (_ * _)%type |- _ => destruct p end.
  stage_call; [|raised O6].
  repeat match goal with p : (_ * _)%type |- _ => destruct p end.
  stage_call; [|raised O7].
  repeat match goal with p : (_ * _)%type |- _ => destruct p end.
  stage_call; [|raised O8].
  repeat match goal with p : (_ * _)%type |- _ => destruct p end.
  stage_call; [|raised O9].
  unfold App.embed_loadline. rewrite modify_bind.
  stage_call.
  - cbv beta iota zeta delta [App.embed_waveform App.config modify mbind st_bind
                               App.labels App.loadline_canvas App.waveform_canvas].
    discriminate.
  - intros H. injection H as <- <-. cbn [frame exc].
    split; [eapply O10; eassumption|].
    split; [intros H; now destruct H|]. intros _. split; reflexivity.
Qed.



